(** * ml_model.py: the [TransformerModel] configuration holder

  A shallow embedding of [test-fixtures/sample-repo/src/ml_model.py].
  The class has a constructor that stores two attributes on the
  instance and a [forward] method whose body is [pass].

  Python objects are references into a store of instance dictionaries,
  so the embedding threads a heap through every call: attribute
  assignment updates the dictionary of the object [self] points to, and
  a raised exception is a result, not a missing one. *)

From Stdlib Require Import ZArith.
From stdpp Require Import gmap strings.

Local Open Scope string_scope.

Set Warnings "-register-all".

(** ** The Python runtime the class runs on *)

Module Py.

(** Object identities. *)
Abbreviation loc := positive (only parsing).

(** Values a caller can pass.  The class never inspects its arguments,
    so this covers the shapes that matter: immediate values, containers
    of values, and references to heap objects (aliasing included). *)
Inductive value : Type :=
| VNone
| VBool (b : bool)
| VInt (n : Z)
| VStr (s : string)
| VTuple (vs : list value)
| VRef (l : loc).

(** An instance: its class name and its [__dict__]. *)
Record object : Type := Object {
  cls : string;
  dict : gmap string value
}.

Abbreviation heap := (gmap positive object) (only parsing).

Inductive exn : Type :=
| AttributeError (attr : string)
| TypeError (msg : string)
| ReferenceError (l : loc).

Inductive result (A : Type) : Type :=
| Ok (a : A)
| Raise (e : exn).
Arguments Ok {A} a.
Arguments Raise {A} e.

(** Computations: a heap goes in, a result and the heap as the
    computation left it come out (writes made before a raise stay). *)
Definition M (A : Type) : Type := heap -> result A * heap.

Definition ret {A} (a : A) : M A := fun h => (Ok a, h).

Definition raise {A} (e : exn) : M A := fun h => (Raise e, h).

Definition bind {A B} (c : M A) (k : A -> M B) : M B :=
  fun h =>
    match c h with
    | (Ok a, h') => k a h'
    | (Raise e, h') => (Raise e, h')
    end.

(** [object.__new__(cls)]: a fresh instance with an empty [__dict__]. *)
Definition alloc (c : string) : M loc :=
  fun h =>
    let l := fresh (dom h) in
    (Ok l, <[l := Object c ∅]> h).

(** [target.name = v] *)
Definition setattr (target : value) (name : string) (v : value) : M unit :=
  fun h =>
    match target with
    | VRef l =>
        match h !! l with
        | Some o => (Ok tt, <[l := Object (cls o) (<[name := v]> (dict o))]> h)
        | None => (Raise (ReferenceError l), h)
        end
    | _ => (Raise (AttributeError name), h)
    end.

(** [target.name], instance attributes only. *)
Definition getattr (target : value) (name : string) : M value :=
  fun h =>
    match target with
    | VRef l =>
        match h !! l with
        | Some o =>
            match dict o !! name with
            | Some v => (Ok v, h)
            | None => (Raise (AttributeError name), h)
            end
        | None => (Raise (ReferenceError l), h)
        end
    | _ => (Raise (AttributeError name), h)
    end.

(** [for x in xs: body(x)], keeping what each call returned. *)
Fixpoint for_each {A B} (xs : list A) (body : A -> M B) : M (list B) :=
  match xs with
  | [] => ret []
  | x :: xs' =>
      bind (body x) (fun r =>
      bind (for_each xs' body) (fun rs =>
      ret (r :: rs)))
  end.

End Py.

Import Py.

Notation "'let*' x := c 'in' k" := (bind c (fun x => k))
  (at level 10, x binder, c at level 100, k at level 200).
Notation "c ;; k" := (bind c (fun _ => k))
  (at level 100, k at level 200, right associativity).

(** ** The class *)

Module TransformerModel.

Definition name : string := "TransformerModel".

(** [def __init__(self, vocab_size, d_model=512)] with the default
    already bound.  Falls off the end, so the call evaluates to [None]. *)
Definition __init__ (self vocab_size d_model : value) : M value :=
  setattr self "d_model" d_model ;;
  setattr self "vocab_size" vocab_size ;;
  ret VNone.

(** [def forward(self, x): pass] *)
Definition forward (self x : value) : M value :=
  ret VNone.

(** The default of the [d_model] parameter. *)
Definition d_model_default : value := VInt 512.

(** The call [TransformerModel(vocab_size)] ([d_model = None] here) or
    [TransformerModel(vocab_size, d_model)]: allocate the instance, run
    [__init__] on it, and hand the instance back.  Python rejects an
    [__init__] that returns something other than [None]. *)
Definition call (vocab_size : value) (d_model : option value) : M value :=
  let* self := alloc name in
  let* r := __init__ (VRef self) vocab_size (default d_model_default d_model) in
  match r with
  | VNone => ret (VRef self)
  | _ => raise (TypeError "__init__() should return None")
  end.

End TransformerModel.

(** A client that calls [forward] once per element of [xs], in order. *)
Definition forward_calls (m : value) (xs : list value) : M (list value) :=
  for_each xs (TransformerModel.forward m).

(** The instance dictionary the constructor leaves behind. *)
Definition stored_fields (vocab_size d_model : value) : gmap string value :=
  <["vocab_size" := vocab_size]> (<["d_model" := d_model]> ∅).

(** The object a value refers to, if it is a live reference. *)
Definition deref (h : gmap positive object) (m : value) : option object :=
  match m with
  | VRef l => h !! l
  | _ => None
  end.

(** Construct, then call [forward] once: the smallest complete session. *)
Definition construct_then_forward
    (vocab_size : value) (d_model : option value) (x : value) : M value :=
  let* m := TransformerModel.call vocab_size d_model in
  TransformerModel.forward m x.

(** ** Runtime lemmas *)

Section runtime.

Implicit Types (h : gmap positive object) (l : positive) (o : object).
Implicit Types (v x m : value) (a : string).

Lemma fresh_unused h : h !! fresh (dom h) = None.
Proof. apply (not_elem_of_dom (D := gset positive)), is_fresh. Qed.

Lemma alloc_run c h :
  alloc c h = (Ok (fresh (dom h)), <[fresh (dom h) := Object c ∅]> h).
Proof. reflexivity. Qed.

Lemma setattr_run h l o a v :
  h !! l = Some o ->
  setattr (VRef l) a v h
  = (Ok tt, <[l := Object (cls o) (<[a := v]> (dict o))]> h).
Proof. intros E. unfold setattr. now rewrite E. Qed.

Lemma getattr_run h l o a v :
  h !! l = Some o -> dict o !! a = Some v ->
  getattr (VRef l) a h = (Ok v, h).
Proof. intros E F. unfold getattr. now rewrite E, F. Qed.

Lemma bind_run {A B} (c : M A) (k : A -> M B) h r h' :
  c h = (Ok r, h') -> bind c k h = k r h'.
Proof. intros E. unfold bind. now rewrite E. Qed.

End runtime.

(** ** What the constructor and [forward] compute *)

Section class_lemmas.

Implicit Types (h : gmap positive object) (l : positive) (o : object).
Implicit Types (v x m V D : value) (a : string).

(** [__init__] on a live instance: both writes land in its dictionary,
    [d_model] first, and the call evaluates to [None]. *)
Lemma init_run h l o V D :
  h !! l = Some o ->
  TransformerModel.__init__ (VRef l) V D h
  = (Ok VNone,
     <[l := Object (cls o) (<["vocab_size" := V]> (<["d_model" := D]> (dict o)))]> h).
Proof.
  intros E. unfold TransformerModel.__init__.
  rewrite (bind_run _ _ _ _ _ (setattr_run _ _ _ _ _ E)).
  erewrite bind_run by (apply setattr_run, lookup_insert_eq).
  cbn. now rewrite insert_insert_eq.
Qed.

(** The whole constructor call, from any heap. *)
Lemma call_run h V (D : option value) :
  TransformerModel.call V D h
  = (Ok (VRef (fresh (dom h))),
     <[fresh (dom h) :=
         Object TransformerModel.name
           (stored_fields V (default TransformerModel.d_model_default D))]> h).
Proof.
  unfold TransformerModel.call.
  rewrite (bind_run _ _ _ _ _ (alloc_run _ _)).
  erewrite bind_run by (apply init_run, lookup_insert_eq).
  cbn. now rewrite insert_insert_eq.
Qed.

Lemma stored_d_model V D : stored_fields V D !! "d_model" = Some D.
Proof.
  unfold stored_fields.
  rewrite lookup_insert_ne by discriminate. apply lookup_insert_eq.
Qed.

Lemma stored_vocab_size V D : stored_fields V D !! "vocab_size" = Some V.
Proof. apply lookup_insert_eq. Qed.

(** Reading an attribute of the instance the dictionary [d] belongs to. *)
Lemma getattr_stored h l c (d : gmap string value) a v :
  d !! a = Some v ->
  getattr (VRef l) a (<[l := Object c d]> h) = (Ok v, <[l := Object c d]> h).
Proof. intros F. eapply getattr_run; [apply lookup_insert_eq | exact F]. Qed.

Lemma forward_run h m x : TransformerModel.forward m x h = (Ok VNone, h).
Proof. reflexivity. Qed.

Lemma forward_calls_run h m xs :
  forward_calls m xs h = (Ok (map (fun _ => VNone) xs), h).
Proof.
  unfold forward_calls. induction xs as [|x xs IH]; [reflexivity|].
  cbn [for_each map].
  rewrite (bind_run _ _ _ _ _ (forward_run h m x)).
  now rewrite (bind_run _ _ _ _ _ IH).
Qed.

End class_lemmas.

(** ** Concrete runs *)

Example run_default :
  TransformerModel.call (VInt 30000) None ∅
  = (Ok (VRef 1),
     {[ 1%positive := Object "TransformerModel"
                        (stored_fields (VInt 30000) (VInt 512)) ]}).
Proof. vm_compute. reflexivity. Qed.

Example run_explicit :
  TransformerModel.call (VStr "big") (Some (VInt (-3))) {[ 1%positive := Object "Other" ∅ ]}
  = (Ok (VRef 2),
     {[ 1%positive := Object "Other" ∅;
        2%positive := Object "TransformerModel"
                        (stored_fields (VStr "big") (VInt (-3))) ]}).
Proof. vm_compute. reflexivity. Qed.

Example run_forward_on_itself :
  construct_then_forward (VInt 8) None (VTuple [VRef 1; VNone]) ∅
  = (Ok VNone,
     {[ 1%positive := Object "TransformerModel"
                        (stored_fields (VInt 8) (VInt 512)) ]}).
Proof. vm_compute. reflexivity. Qed.

Example run_init_on_non_object :
  TransformerModel.__init__ (VInt 5) (VInt 8) (VInt 512) ∅
  = (Raise (AttributeError "d_model"), ∅).
Proof. reflexivity. Qed.

(** ** Properties of the constructor *)

Section constructor.

Implicit Types (h : gmap positive object) (V D x m : value).

(** C1: for every vocabulary size [V], [TransformerModel(V)] with
    [d_model] omitted returns an instance whose [d_model] attribute reads
    512 and whose [vocab_size] attribute reads [V] (from any heap). *)
Theorem construct_default_d_model h V :
  ∃ m h',
    TransformerModel.call V None h = (Ok m, h')
    ∧ getattr m "d_model" h' = (Ok (VInt 512), h')
    ∧ getattr m "vocab_size" h' = (Ok V, h').
Proof.
  eexists _, _. split; [apply call_run|].
  split; apply getattr_stored;
    [apply stored_d_model | apply stored_vocab_size].
Qed.

(** C2: for every [V] and [D], [TransformerModel(V, D)] returns an
    instance whose [d_model] attribute reads [D] and whose [vocab_size]
    attribute reads [V]. *)
Theorem construct_explicit_d_model h V D :
  ∃ m h',
    TransformerModel.call V (Some D) h = (Ok m, h')
    ∧ getattr m "d_model" h' = (Ok D, h')
    ∧ getattr m "vocab_size" h' = (Ok V, h').
Proof.
  eexists _, _. split; [apply call_run|].
  split; apply getattr_stored;
    [apply stored_d_model | apply stored_vocab_size].
Qed.

(** C4: for every [vocab_size] and every [d_model] (given or omitted),
    with no condition on either, the constructor call returns normally.
    Its only effect is one new object, at an address that was unused,
    whose dictionary holds exactly the two fields; every object that was
    already on the heap is left as it was. *)
Theorem construct_never_raises_and_only_stores h V (D : option value) :
  ∃ l d,
    h !! l = None
    ∧ TransformerModel.call V D h
      = (Ok (VRef l), <[l := Object TransformerModel.name d]> h)
    ∧ d !! "vocab_size" = Some V
    ∧ d !! "d_model" = Some (default (VInt 512) D)
    ∧ dom d = {["d_model"; "vocab_size"]}
    ∧ ∀ l', l' ≠ l → snd (TransformerModel.call V D h) !! l' = h !! l'.
Proof.
  exists (fresh (dom h)),
    (stored_fields V (default TransformerModel.d_model_default D)).
  split; [apply fresh_unused|].
  split; [apply call_run|].
  split; [apply stored_vocab_size|].
  split; [apply stored_d_model|].
  split.
  - unfold stored_fields. rewrite !dom_insert_L, dom_empty_L. set_solver.
  - intros l' Hne. rewrite call_run. cbn.
    now rewrite lookup_insert_ne by congruence.
Qed.

End constructor.

(** ** Properties of [forward] *)

Section forward.

Implicit Types (h : gmap positive object) (V D x m : value).
Implicit Types (xs : list value).

(** C3: [forward(x)] returns normally with [None], whatever the receiver
    and the input are; in particular on an instance that the constructor
    has just produced, for any constructor arguments. *)
Theorem forward_returns_None h m x V (D : option value) :
  fst (TransformerModel.forward m x h) = Ok VNone
  ∧ fst (construct_then_forward V D x h) = Ok VNone.
Proof.
  split; [reflexivity|].
  unfold construct_then_forward.
  now rewrite (bind_run _ _ _ _ _ (call_run h V D)).
Qed.

(** C5: [forward(x)] leaves the heap as it found it, so reading
    [d_model] or [vocab_size] of the receiver after the call gives what
    it gave before; on a freshly constructed instance these are the
    constructor's arguments. *)
Theorem forward_leaves_fields h m x V (D : option value) :
  (let h' := snd (TransformerModel.forward m x h) in
   h' = h
   ∧ getattr m "d_model" h' = getattr m "d_model" h
   ∧ getattr m "vocab_size" h' = getattr m "vocab_size" h)
  ∧ ∃ m0 h0,
      TransformerModel.call V D h = (Ok m0, h0)
      ∧ let h1 := snd (TransformerModel.forward m0 x h0) in
        getattr m0 "d_model" h1 = (Ok (default (VInt 512) D), h1)
        ∧ getattr m0 "vocab_size" h1 = (Ok V, h1).
Proof.
  split; [now cbn|].
  eexists _, _. split; [apply call_run|]. cbn.
  split; apply getattr_stored;
    [apply stored_d_model | apply stored_vocab_size].
Qed.

(** C6: construct an instance, then call [forward] any number of times
    with any inputs: every call returns, the heap is the one the
    constructor left, and [d_model] and [vocab_size] still read the
    values fixed at construction. *)
Theorem fields_fixed_after_forward_calls h V (D : option value) xs :
  ∃ m h0 rs h1,
    TransformerModel.call V D h = (Ok m, h0)
    ∧ forward_calls m xs h0 = (Ok rs, h1)
    ∧ h1 = h0
    ∧ getattr m "d_model" h1 = (Ok (default (VInt 512) D), h1)
    ∧ getattr m "vocab_size" h1 = (Ok V, h1).
Proof.
  eexists _, _, _, _.
  split; [apply call_run|].
  split; [apply forward_calls_run|].
  split; [reflexivity|].
  split; apply getattr_stored;
    [apply stored_d_model | apply stored_vocab_size].
Qed.

(** C7: two runs, possibly from different heaps.  Equal constructor
    arguments give instances that are equal as objects (same class, same
    stored fields); and [forward] on receivers that refer to equal
    objects, with equal inputs, gives equal results and leaves the
    receivers equal. *)
Theorem construct_and_forward_deterministic
    h1 h2 V1 V2 (D1 D2 : option value) g1 g2 m1 m2 x1 x2 :
  (V1 = V2 → D1 = D2 →
   ∃ r1 k1 r2 k2 o,
     TransformerModel.call V1 D1 h1 = (Ok r1, k1)
     ∧ TransformerModel.call V2 D2 h2 = (Ok r2, k2)
     ∧ deref k1 r1 = Some o ∧ deref k2 r2 = Some o)
  ∧ (deref g1 m1 = deref g2 m2 → x1 = x2 →
     fst (TransformerModel.forward m1 x1 g1)
     = fst (TransformerModel.forward m2 x2 g2)
     ∧ deref (snd (TransformerModel.forward m1 x1 g1)) m1
       = deref (snd (TransformerModel.forward m2 x2 g2)) m2).
Proof.
  split.
  - intros -> ->. eexists _, _, _, _, _.
    split; [apply call_run|]. split; [apply call_run|].
    cbn [deref]. split; apply lookup_insert_eq.
  - intros E _. now cbn.
Qed.

(** C8: the result of [forward] is the same for any two receivers and
    any two inputs, also when the receivers were constructed with
    different arguments on different heaps. *)
Theorem forward_result_independent
    h1 h2 m1 m2 x1 x2 V1 V2 (D1 D2 : option value) :
  fst (TransformerModel.forward m1 x1 h1)
  = fst (TransformerModel.forward m2 x2 h2)
  ∧ fst (construct_then_forward V1 D1 x1 h1)
    = fst (construct_then_forward V2 D2 x2 h2).
Proof.
  split; [reflexivity|].
  unfold construct_then_forward.
  rewrite (bind_run _ _ _ _ _ (call_run h1 V1 D1)).
  now rewrite (bind_run _ _ _ _ _ (call_run h2 V2 D2)).
Qed.

(** C9: calling [forward(x)] a second time right after the first gives
    the same result and the same heap as the first call alone. *)
Theorem forward_twice_as_once h m x :
  let once := TransformerModel.forward m x h in
  let twice := TransformerModel.forward m x (snd once) in
  fst twice = fst once
  ∧ snd twice = snd once
  ∧ (TransformerModel.forward m x ;; TransformerModel.forward m x) h = once.
Proof.
  intros once twice. subst once twice.
  rewrite (bind_run _ _ _ _ _ (forward_run h m x)).
  rewrite !forward_run. cbn [fst snd].
  repeat split.
Qed.

End forward.

(** Two runs with equal arguments from different heaps: the instances
    land at different addresses and are equal as objects. *)
Lemma construct_and_forward_deterministic_witness :
  (∃ r1 k1 r2 k2 o,
     TransformerModel.call (VInt 100) None ∅ = (Ok r1, k1)
     ∧ TransformerModel.call (VInt 100) None
         {[ 1%positive := Object "Other" ∅ ]} = (Ok r2, k2)
     ∧ deref k1 r1 = Some o ∧ deref k2 r2 = Some o)
  ∧ (fst (TransformerModel.forward (VRef 1) (VStr "tokens")
            {[ 1%positive := Object "TransformerModel"
                               (stored_fields (VInt 100) (VInt 512)) ]})
     = fst (TransformerModel.forward (VRef 2) (VStr "tokens")
              {[ 1%positive := Object "Other" ∅;
                 2%positive := Object "TransformerModel"
                                 (stored_fields (VInt 100) (VInt 512)) ]})
     ∧ deref (snd (TransformerModel.forward (VRef 1) (VStr "tokens")
            {[ 1%positive := Object "TransformerModel"
                               (stored_fields (VInt 100) (VInt 512)) ]}))
         (VRef 1)
       = deref (snd (TransformerModel.forward (VRef 2) (VStr "tokens")
              {[ 1%positive := Object "Other" ∅;
                 2%positive := Object "TransformerModel"
                                 (stored_fields (VInt 100) (VInt 512)) ]}))
           (VRef 2)).
Proof.
  destruct (construct_and_forward_deterministic
              ∅ {[ 1%positive := Object "Other" ∅ ]}
              (VInt 100) (VInt 100) None None
              {[ 1%positive := Object "TransformerModel"
                                 (stored_fields (VInt 100) (VInt 512)) ]}
              {[ 1%positive := Object "Other" ∅;
                 2%positive := Object "TransformerModel"
                                 (stored_fields (VInt 100) (VInt 512)) ]}
              (VRef 1) (VRef 2) (VStr "tokens") (VStr "tokens"))
    as [HC HF].
  split.
  - apply HC; reflexivity.
  - apply HF; [vm_compute; reflexivity | reflexivity].
Defined.

(** ** Instances side by side, and [__init__] called on its own

    [__init__] is an ordinary method: a subclass calls it through
    [super().__init__(...)] on an object that already has attributes, and
    a caller may run it again on a live instance. *)

Section init_method.

Implicit Types (h : gmap positive object) (l : positive) (o : object).
Implicit Types (V D self : value) (a : string).

(** X1: two constructor calls in a row return two different instances,
    and afterwards each instance reads its own arguments: building the
    second one does not touch the first. *)
Theorem instances_are_independent
    h V1 (D1 : option value) V2 (D2 : option value) :
  ∃ l1 h1 l2 h2,
    TransformerModel.call V1 D1 h = (Ok (VRef l1), h1)
    ∧ TransformerModel.call V2 D2 h1 = (Ok (VRef l2), h2)
    ∧ l1 ≠ l2
    ∧ getattr (VRef l1) "vocab_size" h2 = (Ok V1, h2)
    ∧ getattr (VRef l1) "d_model" h2 = (Ok (default (VInt 512) D1), h2)
    ∧ getattr (VRef l2) "vocab_size" h2 = (Ok V2, h2)
    ∧ getattr (VRef l2) "d_model" h2 = (Ok (default (VInt 512) D2), h2).
Proof.
  eexists _, _, _, _.
  split; [apply call_run|]. split; [apply call_run|].
  set (l1 := fresh (dom h)).
  set (o1 := Object _ (stored_fields V1 _)).
  set (h1 := <[l1 := o1]> h).
  set (l2 := fresh (dom h1)).
  assert (Hne : l2 ≠ l1).
  { intros E. pose proof (fresh_unused h1) as F. fold l2 in F.
    rewrite E in F. unfold h1 in F. rewrite lookup_insert_eq in F.
    discriminate. }
  assert (H1 : ∀ o2, <[l2 := o2]> h1 !! l1 = Some o1).
  { intros o2. rewrite lookup_insert_ne by exact Hne.
    apply lookup_insert_eq. }
  split; [congruence|].
  split; [eapply getattr_run; [apply H1 | apply stored_vocab_size]|].
  split; [eapply getattr_run; [apply H1 | apply stored_d_model]|].
  split; apply getattr_stored;
    [apply stored_vocab_size | apply stored_d_model].
Qed.



(** X4: when the receiver is not an object ([None], a bool, an int, a
    string or a tuple), [__init__] raises [AttributeError] at its first
    assignment, the one to [d_model], and nothing on the heap changes. *)
Theorem init_on_non_object_raises h self V D :
  (∀ l, self ≠ VRef l) →
  TransformerModel.__init__ self V D h = (Raise (AttributeError "d_model"), h).
Proof.
  intros Hn. destruct self; try reflexivity.
  now destruct (Hn l).
Qed.

End init_method.



(** [TransformerModel.__init__(None, 100, 64)]. *)
Lemma init_on_non_object_raises_witness :
  TransformerModel.__init__ VNone (VInt 100) (VInt 64) ∅
  = (Raise (AttributeError "d_model"), ∅).
Proof.
  apply (init_on_non_object_raises ∅ VNone); intros l; discriminate.
Defined.
